(** * MMOTop voting automation: the workflow of [main.py] and [settings.py]

    The program drives a browser through an opaque automation driver.  The
    driver is modelled as an oracle over an abstract [World]; every driver
    call either returns or raises.  A run produces a result, a final world
    and the trace of what it did: driver calls (labelled with the line of
    [main.py] they are written on), log records, sleeps, and the entry and
    exit of every page operation. *)

From Stdlib Require Import ZArith.
From stdpp Require Import base gmap strings list.

Open Scope string_scope.
Open Scope list_scope.

(** ** Exceptions *)

(** The three exception classes [main.py] imports, and everything else.
    None of the three is a subclass of another; an exception belongs to
    [OtherException] when it is an instance of none of them. *)
Inductive ExcClass :=
| NoSuchElementException
| TimeoutException
| ElementNotVisibleException
| OtherException (name : string).

(** An exception object: its class and [str(e)]. *)
Record Exc := mkExc { exc_class : ExcClass; exc_str : string }.

Inductive result (A : Type) :=
| Ok (a : A)
| Raise (e : Exc).
Arguments Ok {A} a.
Arguments Raise {A} e.

Inductive Outcome :=
| Returned
| Raised (e : Exc).

Definition outcome_of {A} (r : result A) : Outcome :=
  match r with
  | Ok _ => Returned
  | Raise e => Raised e
  end.

(** ** The driver's capability surface *)

(** A handle to a DOM element, as returned by the driver. *)
Definition WebElement := nat.

(** [By.XPATH] *)
Definition By_XPATH : string := "xpath".

Inductive Target :=
| Selector (s : string)
| Element (e : WebElement).

(** The driver calls of [main.py], with their arguments in source order. *)
Inductive DriverCall :=
| SB_enter (browser : string) (uc ad_block_on : bool) (page_load_strategy : string)
| uc_open_with_reconnect (url : string) (reconnect_time : Z)
| uc_click (target : Target) (by_ : option string) (reconnect_time : Z)
| send_keys (selector text by_ : string)
| wait_for_element_present (args : list string)
| drag_and_drop_by_offset (source : WebElement) (xoffset yoffset : Z)
| reconnect (timeout : Z)
| element_text (e : WebElement)
| find_element (args : list string)
| uc_switch_to_frame (frame : WebElement)
| execute_script (script : string)
| element_clear (e : WebElement)
| element_send_keys (e : WebElement) (text : string)
| click (selector : string).

(** The browser behind the driver.  A call is answered from the current
    world and moves it on; the three entry points differ only in what a
    successful call hands back.  [drv_teardown] is the session's
    exit-guaranteed cleanup. *)
Record Driver (World : Type) := mkDriver {
  drv_unit : DriverCall -> World -> result unit * World;
  drv_element : DriverCall -> World -> result WebElement * World;
  drv_string : DriverCall -> World -> result string * World;
  drv_teardown : World -> World
}.
Arguments drv_unit {World} _ _ _.
Arguments drv_element {World} _ _ _.
Arguments drv_string {World} _ _ _.
Arguments drv_teardown {World} _ _.

(** *** What [find_element] raises

    [driver.find_element] is selenium's own method.  For a missing element
    it raises selenium's [NoSuchElementException], a class of its own: it is
    not the class of that name which [main.py] imports from
    [seleniumbase.common.exceptions], and not a subclass of it. *)
Definition selenium_NoSuchElementException : ExcClass :=
  OtherException "selenium.common.exceptions.NoSuchElementException".


(** A driver whose [find_element] never raises the imported class. *)
Definition find_element_is_seleniums {World} (driver : Driver World) : Prop :=
  forall (args : list string) (w w' : World) (e : Exc),
    drv_element driver (find_element args) w = (Raise e, w') ->
    exc_class e <> NoSuchElementException.

(** ** Traces *)

Inductive PageOp :=
| op_open_vote_page (url : string)
| op_login (user_name user_password : string)
| op_solve_qaptcha
| op_log_time_until_next_vote
| op_solve_cloudflare_captcha
| op_vote (server_rate account_name : string).

Inductive Level := INFO | ERROR.

Inductive Event :=
| EvDriver (line : N) (c : DriverCall) (o : Outcome)
| EvLog (lvl : Level) (msg : string)
| EvSleep (secs : Z)
| EvCall (op : PageOp)
| EvExit (op : PageOp) (o : Outcome)
| EvTeardown.
Arguments EvDriver line%_N c o.

(** ** The monad of the workflow: world passing, exceptions, trace *)

Definition M (World A : Type) : Type := World -> result A * World * list Event.

Definition M_ret {World A} (a : A) : M World A := fun w => (Ok a, w, []).

Definition M_bind {World A B} (f : A -> M World B) (m : M World A) : M World B :=
  fun w =>
    match m w with
    | (Ok a, w1, t1) =>
        match f a w1 with
        | (r, w2, t2) => (r, w2, t1 ++ t2)
        end
    | (Raise e, w1, t1) => (Raise e, w1, t1)
    end.

#[global] Instance M_mret {World} : MRet (M World) := @M_ret World.
#[global] Instance M_mbind {World} : MBind (M World) := @M_bind World.

Definition lift {World A} (r : result A) : M World A := fun w => (r, w, []).

(** [try: body / except ...: handler].  [handler e] is [None] when no
    [except] clause matches [e]; the exception then propagates. *)
Definition try_except {World A} (body : M World A)
    (handler : Exc -> option (M World A)) : M World A :=
  fun w =>
    match body w with
    | (Ok a, w1, t1) => (Ok a, w1, t1)
    | (Raise e, w1, t1) =>
        match handler e with
        | Some h =>
            match h w1 with
            | (r, w2, t2) => (r, w2, t1 ++ t2)
            end
        | None => (Raise e, w1, t1)
        end
    end.

Definition emit {World} (ev : Event) : M World unit := fun w => (Ok tt, w, [ev]).

Definition logging_info {World} (msg : string) : M World unit := emit (EvLog INFO msg).
Definition logging_error {World} (msg : string) : M World unit := emit (EvLog ERROR msg).
Definition time_sleep {World} (secs : Z) : M World unit := emit (EvSleep secs).

(** Entry and exit of a page operation are recorded around its body. *)
Definition traced {World} (op : PageOp) (body : M World unit) : M World unit :=
  fun w =>
    match body w with
    | (r, w1, t) => (r, w1, EvCall op :: t ++ [EvExit op (outcome_of r)])
    end.

Definition res {World A} (x : result A * World * list Event) : result A := x.1.1.
Definition trace {World A} (x : result A * World * list Event) : list Event := x.2.
Definition world {World A} (x : result A * World * list Event) : World := x.1.2.

(** ** settings.py *)

(** [os.getenv(key, default)] *)
Definition getenv (environ : gmap string string) (key default_ : string) : string :=
  default default_ (environ !! key).

Definition config (environ : gmap string string) : gmap string string :=
  <["vote_url" := "https://wow.mmotop.ru/servers/5130/votes/new"]>
  (<["user_name" := getenv environ "mmotop_login" ""]>
  (<["user_password" := getenv environ "mmotop_password" ""]>
  (<["server_rate" := "x2"]>
  (<["sirus_account_name" := getenv environ "sirus_account_name" ""]>
  (<["browser" := "chrome"]> ∅))))).

(** ** main.py *)

Section Workflow.

Context {World : Type} (driver : Driver World).

Local Abbreviation M := (M World).

Definition call_unit (line : N) (c : DriverCall) : M unit :=
  fun w =>
    match drv_unit driver c w with
    | (r, w1) => (r, w1, [EvDriver line c (outcome_of r)])
    end.

Definition call_element (line : N) (c : DriverCall) : M WebElement :=
  fun w =>
    match drv_element driver c w with
    | (r, w1) => (r, w1, [EvDriver line c (outcome_of r)])
    end.

Definition call_string (line : N) (c : DriverCall) : M string :=
  fun w =>
    match drv_string driver c w with
    | (r, w1) => (r, w1, [EvDriver line c (outcome_of r)])
    end.

(** *** class MMOTopPage *)

Definition open_vote_page (url : string) : M unit :=
  traced (op_open_vote_page url) (
    logging_info ("Opening vote page: " +:+ url);;
    call_unit 47 (uc_open_with_reconnect url 7)).

Definition login (user_name user_password : string) : M unit :=
  traced (op_login user_name user_password) (
    logging_info "Logging in...";;
    call_unit 57 (uc_click (Selector "//a[@href='https://mmotop.ru/users/sign_in']")
                           (Some By_XPATH) 5);;
    call_unit 62 (send_keys "//input[@id='user_email']" user_name By_XPATH);;
    call_unit 63 (send_keys "//input[@id='user_password']" user_password By_XPATH);;
    call_unit 66 (uc_click (Selector "//input[@name='sign_in']") (Some By_XPATH) 5)).

Definition solve_qaptcha : M unit :=
  traced op_solve_qaptcha (
    slider ← call_element 72 (wait_for_element_present
                [ "//div[@class='Slider ui-draggable ui-draggable-handle']" ]);
    call_unit 75 (drag_and_drop_by_offset slider 478 0);;
    logging_info "Qaptcha solved!";;
    call_unit 77 (reconnect 3)).

Definition log_time_until_next_vote : M unit :=
  traced op_log_time_until_next_vote (
    countdown_element ← call_element 83 (wait_for_element_present
                [ By_XPATH; "//span[@class='countdown_row countdown_amount']" ]);
    countdown_text ← call_string 86 (element_text countdown_element);
    logging_info ("Time remaining until next vote: " +:+ countdown_text)).

Definition except_NoSuchElementException {A} (h : M A) (e : Exc) : option (M A) :=
  match exc_class e with
  | NoSuchElementException => Some h
  | _ => None
  end.

Definition _solve_cloudflare_captcha : M unit :=
  traced op_solve_cloudflare_captcha (
    frame ← call_element 93 (find_element
                [ "//iframe[contains(@src, 'cloudflare.com')]"; By_XPATH ]);
    call_unit 96 (uc_switch_to_frame frame);;
    try_except
      (call_element 98 (find_element [ "//div[contains(@style, 'visible')]"; By_XPATH ]);;
       mret tt)
      (except_NoSuchElementException (
         call_unit 100 (uc_click (Element frame) None 7);;
         call_element 101 (find_element [ "//div[contains(@style, 'visible')]"; By_XPATH ]);;
         mret tt))).

Definition vote (server_rate account_name : string) : M unit :=
  traced (op_vote server_rate account_name) (
    logging_info ("Voting for " +:+ account_name +:+ " on server rate "
                  +:+ server_rate +:+ "...");;
    call_unit 111 (execute_script "window.scrollTo(0, 10000);");;
    call_unit 112 (uc_click
      (Selector ("//td[contains(text(), '" +:+ server_rate
                 +:+ "')]/../td/input[@type='radio']"))
      (Some By_XPATH) 3);;
    char_input ← call_element 117 (find_element
                [ By_XPATH; "//div[@id='charname']/input" ]);
    call_unit 118 (element_clear char_input);;
    call_unit 119 (element_send_keys char_input account_name);;
    _solve_cloudflare_captcha;;
    call_unit 121 (reconnect 3);;
    try_except
      (call_unit 123 (click "//div/input[@type='submit']");;
       logging_info "Vote successful!";;
       time_sleep 10)
      (except_NoSuchElementException (logging_error "Captcha not solved!"))).

(** *** class MMOTopAutomation *)

Record MMOTopAutomation := {
  vote_url : string;
  username : string;
  password : string;
  server_rate : string;
  sirus_account_name : string;
  browser : string
}.

Definition MMOTopAutomation_init
    (vote_url user_name user_password server_rate sirus_account_name browser : string) :
    MMOTopAutomation :=
  {| vote_url := vote_url;
     username := user_name;
     password := user_password;
     server_rate := server_rate;
     sirus_account_name := sirus_account_name;
     browser := browser |}.

(** [with SB(...) as sb: body].  The session is torn down on every exit
    path of the body and the body's exception, if any, is raised again. *)
Definition with_SB (browser : string) (body : M unit) : M unit :=
  fun w =>
    match drv_unit driver (SB_enter browser true true "none") w with
    | (Ok _, w1) =>
        match body w1 with
        | (r, w2, t) =>
            (r, drv_teardown driver w2,
             EvDriver 165 (SB_enter browser true true "none") Returned
               :: t ++ [EvTeardown])
        end
    | (Raise e, w1) =>
        (Raise e, w1, [EvDriver 165 (SB_enter browser true true "none") (Raised e)])
    end.

Definition run (self : MMOTopAutomation) : M unit :=
  with_SB (browser self) (
    open_vote_page (vote_url self);;
    login (username self) (password self);;
    try_except
      (logging_info "Checking if already voted today...";;
       log_time_until_next_vote)
      (except_NoSuchElementException (
         logging_info "Not voted today yet.";;
         solve_qaptcha;;
         vote (server_rate self) (sirus_account_name self)))).

(** *** the [__main__] block *)

(** The names [MMOTopAutomation.__init__] accepts as keywords. *)
Definition init_parameters : list string :=
  [ "vote_url"; "user_name"; "user_password"; "server_rate";
    "sirus_account_name"; "browser" ].

Definition TypeError (msg : string) : Exc := mkExc (OtherException "TypeError") msg.

(** The constructor applied to an unpacked dictionary: every key must name
    a parameter, the five parameters without a default must be given, and
    [browser] defaults to ["chrome"]. *)
Definition MMOTopAutomation_kwargs (kwargs : gmap string string) :
    result MMOTopAutomation :=
  if forallb (fun k => bool_decide (k ∈ init_parameters)) (elements (dom kwargs)) then
    match kwargs !! "vote_url", kwargs !! "user_name", kwargs !! "user_password",
          kwargs !! "server_rate", kwargs !! "sirus_account_name" with
    | Some u, Some n, Some p, Some r, Some a =>
        Ok (MMOTopAutomation_init u n p r a (default "chrome" (kwargs !! "browser")))
    | _, _, _, _, _ =>
        Raise (TypeError "__init__() missing required positional argument")
    end
  else Raise (TypeError "__init__() got an unexpected keyword argument").

Definition top_level_handlers (e : Exc) : option (M unit) :=
  match exc_class e with
  | NoSuchElementException => Some (logging_error ("Element not found: " +:+ exc_str e))
  | TimeoutException => Some (logging_error ("A timeout occurred: " +:+ exc_str e))
  | ElementNotVisibleException =>
      Some (logging_error ("Element not visible: " +:+ exc_str e))
  | OtherException _ => None
  end.

Definition main (environ : gmap string string) : M unit :=
  try_except
    (automation ← lift (MMOTopAutomation_kwargs (config environ));
     run automation)
    top_level_handlers.

End Workflow.

Arguments call_unit {World} driver line%_N c _.
Arguments call_element {World} driver line%_N c _.
Arguments call_string {World} driver line%_N c _.

(** ** A scripted browser

    A test double for the driver.  The world is the list of faults still to
    be injected: a call raises when it is the call the next pending fault
    waits for, and succeeds otherwise. *)

#[global] Instance ExcClass_eq_dec : EqDecision ExcClass.
Proof. solve_decision. Defined.

#[global] Instance Exc_eq_dec : EqDecision Exc.
Proof. solve_decision. Defined.

#[global] Instance Target_eq_dec : EqDecision Target.
Proof. solve_decision. Defined.

#[global] Instance DriverCall_eq_dec : EqDecision DriverCall.
Proof. solve_decision. Defined.

Module Scripted.

Definition World := list (DriverCall * Exc).

Definition answer {A} (value : A) (c : DriverCall) (w : World) : result A * World :=
  match w with
  | (c', e) :: rest => if decide (c = c') then (Raise e, rest) else (Ok value, w)
  | [] => (Ok value, w)
  end.

Definition driver : Driver World :=
  {| drv_unit := answer tt;
     drv_element := answer 1%nat;
     drv_string := answer "23:59:59";
     drv_teardown := fun _ => [] |}.

Definition slider_wait : DriverCall :=
  wait_for_element_present [ "//div[@class='Slider ui-draggable ui-draggable-handle']" ].

Definition countdown_wait : DriverCall :=
  wait_for_element_present [ By_XPATH; "//span[@class='countdown_row countdown_amount']" ].

Definition marker_check : DriverCall :=
  find_element [ "//div[contains(@style, 'visible')]"; By_XPATH ].

Definition submit_click : DriverCall := click "//div/input[@type='submit']".

Definition sign_in_click : DriverCall :=
  uc_click (Selector "//a[@href='https://mmotop.ru/users/sign_in']") (Some By_XPATH) 5.

Definition radio_click : DriverCall :=
  uc_click (Selector "//td[contains(text(), 'x2')]/../td/input[@type='radio']")
    (Some By_XPATH) 3.

Definition not_found : Exc := mkExc NoSuchElementException "no such element".
Definition selenium_not_found : Exc :=
  mkExc selenium_NoSuchElementException "no such element".
Definition timed_out : Exc := mkExc TimeoutException "timed out".
Definition not_visible : Exc := mkExc ElementNotVisibleException "not visible".
Definition crashed : Exc := mkExc (OtherException "WebDriverException") "chrome not reachable".

(** A fault scripted for [find_element] is raised the way selenium raises
    it: never with the imported class. *)
Definition as_selenium (e : Exc) : Exc :=
  match exc_class e with
  | NoSuchElementException => mkExc selenium_NoSuchElementException (exc_str e)
  | _ => e
  end.

Definition answer_element (c : DriverCall) (w : World) : result WebElement * World :=
  match c, answer 1%nat c w with
  | find_element _, (Raise e, w') => (Raise (as_selenium e), w')
  | _, r => r
  end.

(** The scripted browser with selenium's [find_element]. *)
Definition selenium_driver : Driver World :=
  {| drv_unit := answer tt;
     drv_element := answer_element;
     drv_string := answer "23:59:59";
     drv_teardown := fun _ => [] |}.

(** On the vote page, the marker of the iframe challenge is not there. *)
Definition marker_absent : World := [ (marker_check, selenium_not_found) ].


(** Nothing goes wrong: the countdown is displayed. *)
Definition already_voted : World := [].

(** No countdown; everything else goes well. *)
Definition eligible : World := [ (countdown_wait, not_found) ].

(** No countdown, and the wait for the slider times out. *)
Definition slider_times_out : World :=
  [ (countdown_wait, not_found); (slider_wait, timed_out) ].

(** No countdown, and no submit button. *)
Definition submit_missing : World :=
  [ (countdown_wait, not_found); (submit_click, not_found) ].

(** The vote page has no submit button. *)
Definition page_without_submit : World := [ (submit_click, not_found) ].



(** No countdown, and the click on the submit button times out. *)
Definition submit_times_out : World :=
  [ (countdown_wait, not_found); (submit_click, timed_out) ].

(** On the vote page, the click on the submit button times out. *)
Definition page_submit_times_out : World := [ (submit_click, timed_out) ].

(** The browser dies at the click on the sign-in link. *)
Definition browser_crashes : World := [ (sign_in_click, crashed) ].

(** The sign-in link is not there. *)
Definition sign_in_missing : World := [ (sign_in_click, not_found) ].

(** The wait for the countdown times out. *)
Definition countdown_times_out : World := [ (countdown_wait, timed_out) ].

Definition automation : MMOTopAutomation :=
  MMOTopAutomation_init "https://wow.mmotop.ru/servers/5130/votes/new"
    "user" "secret" "x2" "hero" "chrome".

End Scripted.

(** ** Reading traces *)

(** The slider-challenge and vote operations a trace invokes, in order. *)
Definition slider_and_vote_calls (t : list Event) : list PageOp :=
  omap (fun ev =>
          match ev with
          | EvCall op_solve_qaptcha => Some op_solve_qaptcha
          | EvCall (op_vote r a) => Some (op_vote r a)
          | _ => None
          end) t.

(** The page operations a trace invokes, in order. *)
Definition page_calls (t : list Event) : list PageOp :=
  omap (fun ev => match ev with EvCall op => Some op | _ => None end) t.

(** How often the driver call written on [line] was made. *)
Definition calls_at (line : N) (t : list Event) : nat :=
  length (List.filter (fun ev =>
                         match ev with
                         | EvDriver l _ _ => N.eqb l line
                         | _ => false
                         end) t).

(** The last [n] events of a trace. *)
Definition last_events (n : nat) (t : list Event) : list Event :=
  skipn (length t - n) t.

(** The automation object [main] constructs from the configuration. *)
Definition configured (environ : gmap string string) : MMOTopAutomation :=
  MMOTopAutomation_init "https://wow.mmotop.ru/servers/5130/votes/new"
    (getenv environ "mmotop_login" "") (getenv environ "mmotop_password" "")
    "x2" (getenv environ "sirus_account_name" "") "chrome".

(** The record an [except] clause of the [__main__] block logs for an
    exception of one of the three handled classes. *)
Definition top_level_record (e : Exc) : Event :=
  EvLog ERROR
    (match exc_class e with
     | NoSuchElementException => "Element not found: "
     | TimeoutException => "A timeout occurred: "
     | ElementNotVisibleException => "Element not visible: "
     | OtherException _ => ""
     end +:+ exc_str e).

(** ** Symbolic execution of the workflow *)

Ltac unfold_workflow :=
  unfold res, trace, world, main, run, with_SB, vote, _solve_cloudflare_captcha,
    log_time_until_next_vote, solve_qaptcha, login, open_vote_page,
    top_level_handlers, except_NoSuchElementException,
    traced, try_except, call_unit, call_element, call_string,
    logging_info, logging_error, time_sleep, emit, lift,
    mbind, M_mbind, M_bind, mret, M_mret, M_ret in *.

Ltac exec_step :=
  match goal with
  | |- context [drv_unit ?d ?c ?w] =>
      is_var w; destruct (drv_unit d c w) as [[[]|?] ?]
  | |- context [drv_element ?d ?c ?w] =>
      is_var w; destruct (drv_element d c w) as [[?|?] ?]
  | |- context [drv_string ?d ?c ?w] =>
      is_var w; destruct (drv_string d c w) as [[?|?] ?]
  | |- context [match exc_class ?e with _ => _ end] =>
      is_var e; destruct e as [[ | | | ?] ?]
  end; cbn -[String.append In].

(** String literals play no part in the control flow: they are abstracted
    before execution, in the program and in the statement alike. *)
Ltac hide_literals :=
  repeat match goal with
         | |- context [String ?a ?s] => generalize (String a s); intro
         end.

(** An [In] hypothesis over an explicit trace, split into its cases. *)
Ltac in_cases H :=
  cbn [In] in H;
  repeat match type of H with
         | _ \/ _ => destruct H as [H | H]
         | False => destruct H
         | _ = _ => first [ discriminate H | inversion H; subst; clear H ]
         end.

Ltac in_trace := cbn [In]; solve [ repeat first [ left; reflexivity | right ] ].

(** The same on a closed execution, which is first evaluated. *)
Ltac in_run := vm_compute; solve [ repeat first [ left; reflexivity | right ] ].

(** ** Configuration *)

Lemma kwargs_config (environ : gmap string string) :
  MMOTopAutomation_kwargs (config environ) = Ok (configured environ).
Proof.
  unfold MMOTopAutomation_kwargs, config, configured.
  generalize (getenv environ "mmotop_login" ""), (getenv environ "mmotop_password" ""),
    (getenv environ "sirus_account_name" "").
  intros n p a. vm_compute. reflexivity.
Qed.

(** ** The top level *)

Section TopLevel.

Context {World : Type} (driver : Driver World).

Lemma main_run (environ : gmap string string) (w : World) :
  main driver environ w =
  try_except (run driver (configured environ)) top_level_handlers w.
Proof.
  unfold main, try_except, mbind, M_mbind, M_bind, lift.
  rewrite kwargs_config.
  destruct (run driver (configured environ) w) as [[[a | e] w1] t]; reflexivity.
Qed.

Lemma top_level_returned (body : M World unit) (w : World) :
  res (body w) = Ok tt ->
  try_except body top_level_handlers w = body w.
Proof.
  unfold try_except, res.
  destruct (body w) as [[[a | e] w1] t]; cbn; [reflexivity | discriminate].
Qed.

Lemma top_level_raised (body : M World unit) (w : World) (e : Exc) :
  res (body w) = Raise e ->
  try_except body top_level_handlers w =
  match exc_class e with
  | OtherException _ => body w
  | _ => (Ok tt, world (body w), trace (body w) ++ [top_level_record e])
  end.
Proof.
  unfold try_except, res, world, trace, top_level_handlers, top_level_record.
  destruct (body w) as [[[a | e'] w1] t]; cbn; [discriminate |].
  intros [= ->]. destruct (exc_class e); reflexivity.
Qed.

End TopLevel.

(** ** The orchestration *)

Section RunProperties.

Context {World : Type} (driver : Driver World).

(** All paths of one execution: the execution is named, run once, and the
    goal is then read on each explicit outcome. *)
Ltac paths_of X :=
  let x := fresh "x" in
  let Hx := fresh "Hx" in
  remember X as x eqn:Hx; revert Hx;
  unfold_workflow; hide_literals; cbn -[String.append In]; repeat exec_step;
  intros ->; cbn -[String.append In].

Ltac run_paths :=
  match goal with
  | |- context [run ?d ?s ?w] => paths_of (run d s w)
  end.

Ltac vote_paths :=
  match goal with
  | |- context [vote ?d ?r ?a ?w] => paths_of (vote d r a w)
  end.

Ltac captcha_paths :=
  match goal with
  | |- context [_solve_cloudflare_captcha ?d ?w] =>
      paths_of (_solve_cloudflare_captcha d w)
  end.

Lemma run_probe_raised (self : MMOTopAutomation) (w : World) (e : Exc) :
  In (EvExit op_log_time_until_next_vote (Raised e)) (trace (run driver self w)) ->
  exc_class e <> NoSuchElementException ->
  slider_and_vote_calls (trace (run driver self w)) = [] /\
  res (run driver self w) = Raise e /\
  last_events 2 (trace (run driver self w)) =
    [EvExit op_log_time_until_next_vote (Raised e); EvTeardown].
Proof.
  run_paths; intros H Hne; in_cases H; cbn in Hne; try congruence.
  all: repeat split.
Qed.

Lemma run_login_raised (self : MMOTopAutomation) (w : World) (u p : string) (e : Exc) :
  In (EvExit (op_login u p) (Raised e)) (trace (run driver self w)) ->
  res (run driver self w) = Raise e /\
  last_events 2 (trace (run driver self w)) =
    [EvExit (op_login u p) (Raised e); EvTeardown].
Proof.
  run_paths; intros H; in_cases H.
  all: repeat split.
Qed.



Lemma vote_submit_missing (r a : string) (w : World) (c : DriverCall) (e : Exc) :
  In (EvDriver 123 c (Raised e)) (trace (vote driver r a w)) ->
  exc_class e = NoSuchElementException ->
  res (vote driver r a w) = Ok tt /\
  last_events 3 (trace (vote driver r a w)) =
    [EvDriver 123 c (Raised e); EvLog ERROR "Captcha not solved!";
     EvExit (op_vote r a) Returned].
Proof.
  vote_paths; intros H Hcls; in_cases H; try discriminate Hcls.
  all: repeat split.
Qed.

Lemma run_submit_missing (self : MMOTopAutomation) (w : World)
    (c : DriverCall) (e : Exc) :
  In (EvDriver 123 c (Raised e)) (trace (run driver self w)) ->
  exc_class e = NoSuchElementException ->
  res (run driver self w) = Ok tt /\
  last_events 4 (trace (run driver self w)) =
    [EvDriver 123 c (Raised e); EvLog ERROR "Captcha not solved!";
     EvExit (op_vote (server_rate self) (sirus_account_name self)) Returned;
     EvTeardown].
Proof.
  run_paths; intros H Hcls; in_cases H; try discriminate Hcls.
  all: repeat split.
Qed.

(** The same with a driver whose [find_element] is selenium's: the paths on
    which it raises the imported class do not exist. *)
Ltac exec_step_seleniums Hsel :=
  match goal with
  | |- context [drv_element ?d (find_element ?args) ?w] =>
      is_var w; generalize (Hsel args w);
      destruct (drv_element d (find_element args) w) as [[?|?] ?];
      [ intros _
      | let Hr := fresh "Hraised" in intros Hr; specialize (Hr _ _ eq_refl) ]
  | |- context [drv_unit ?d ?c ?w] =>
      is_var w; destruct (drv_unit d c w) as [[[]|?] ?]
  | |- context [drv_element ?d ?c ?w] =>
      is_var w; destruct (drv_element d c w) as [[?|?] ?]
  | |- context [drv_string ?d ?c ?w] =>
      is_var w; destruct (drv_string d c w) as [[?|?] ?]
  | |- context [match exc_class ?e with _ => _ end] =>
      is_var e; destruct e as [[ | | | ?] ?]
  end;
  cbn -[String.append In] in *;
  try match goal with
      | Hr : NoSuchElementException <> NoSuchElementException |- _ =>
          exfalso; apply Hr; reflexivity
      end.

Ltac paths_of_seleniums Hsel X :=
  let x := fresh "x" in
  let Hx := fresh "Hx" in
  remember X as x eqn:Hx; revert Hx;
  unfold_workflow; hide_literals; cbn -[String.append In];
  repeat exec_step_seleniums Hsel;
  intros ->; cbn -[String.append In].



Lemma iframe_seleniums_no_retry (Hsel : find_element_is_seleniums driver) (w : World) :
  calls_at 100 (trace (_solve_cloudflare_captcha driver w)) = 0 /\
  calls_at 101 (trace (_solve_cloudflare_captcha driver w)) = 0 /\
  (forall c e,
     In (EvDriver 98 c (Raised e)) (trace (_solve_cloudflare_captcha driver w)) ->
     res (_solve_cloudflare_captcha driver w) = Raise e).
Proof.
  match goal with
  | |- context [_solve_cloudflare_captcha ?d ?w] =>
      paths_of_seleniums Hsel (_solve_cloudflare_captcha d w)
  end.
  all: split; [ reflexivity | split; [ reflexivity | ] ].
  all: intros c' e' H; in_cases H; reflexivity.
Qed.

(** *** The claims about the orchestration *)

(** C1 (amended): when the countdown probe raises NoSuchElementException the
    run invokes the slider challenge exactly once; if that call returns, the
    run then invokes the vote exactly once, and if it raises, the vote is not
    invoked.  There are no other slider-challenge or vote calls. *)
Theorem run_eligible_calls (self : MMOTopAutomation) (w : World) (e : Exc) :
  In (EvExit op_log_time_until_next_vote (Raised e)) (trace (run driver self w)) ->
  exc_class e = NoSuchElementException ->
  exists o : Outcome,
    In (EvExit op_solve_qaptcha o) (trace (run driver self w)) /\
    slider_and_vote_calls (trace (run driver self w)) =
      match o with
      | Returned =>
          [op_solve_qaptcha; op_vote (server_rate self) (sirus_account_name self)]
      | Raised _ => [op_solve_qaptcha]
      end.
Proof.
  run_paths; intros H Hcls; in_cases H; try discriminate Hcls.
  all: eexists; split; [ in_trace | reflexivity ].
Qed.

(** C2: when the countdown probe returns normally, the run invokes neither
    the slider challenge nor the vote, returns normally, and does nothing
    after the probe but release the session. *)
Theorem run_already_voted (self : MMOTopAutomation) (w : World) :
  In (EvExit op_log_time_until_next_vote Returned) (trace (run driver self w)) ->
  slider_and_vote_calls (trace (run driver self w)) = [] /\
  res (run driver self w) = Ok tt /\
  last_events 2 (trace (run driver self w)) =
    [EvExit op_log_time_until_next_vote Returned; EvTeardown].
Proof.
  run_paths; intros H; in_cases H.
  repeat split.
Qed.


(** C4: an exception of one of the three handled classes raised by the login
    leaves the run as it is, nothing in the run having handled it (the run
    only releases the session), and is caught by the top level, which logs
    it with its message and ends. *)
Theorem login_exception_reaches_top_level (environ : gmap string string) (w : World)
    (u p : string) (e : Exc) :
  In (EvExit (op_login u p) (Raised e)) (trace (run driver (configured environ) w)) ->
  exc_class e = NoSuchElementException \/ exc_class e = TimeoutException \/
    exc_class e = ElementNotVisibleException ->
  res (run driver (configured environ) w) = Raise e /\
  last_events 2 (trace (run driver (configured environ) w)) =
    [EvExit (op_login u p) (Raised e); EvTeardown] /\
  res (main driver environ w) = Ok tt /\
  trace (main driver environ w) =
    trace (run driver (configured environ) w) ++ [top_level_record e].
Proof.
  intros H Hcls.
  destruct (run_login_raised _ _ _ _ _ H) as [Hres Hlast].
  rewrite main_run, (top_level_raised _ _ e Hres).
  repeat split; try assumption.
  all: destruct Hcls as [-> | [-> | ->]]; reflexivity.
Qed.

(** C5: when the click on the submit button raises NoSuchElementException,
    the vote logs the error "Captcha not solved!", does not raise and returns
    normally, and so does the run. *)
Theorem vote_missing_submit_is_soft (self : MMOTopAutomation) (r a : string)
    (w w' : World) (c : DriverCall) (e : Exc) :
  exc_class e = NoSuchElementException ->
  (In (EvDriver 123 c (Raised e)) (trace (vote driver r a w)) ->
     res (vote driver r a w) = Ok tt /\
     last_events 3 (trace (vote driver r a w)) =
       [EvDriver 123 c (Raised e); EvLog ERROR "Captcha not solved!";
        EvExit (op_vote r a) Returned]) /\
  (In (EvDriver 123 c (Raised e)) (trace (run driver self w')) ->
     res (run driver self w') = Ok tt /\
     last_events 4 (trace (run driver self w')) =
       [EvDriver 123 c (Raised e); EvLog ERROR "Captcha not solved!";
        EvExit (op_vote (server_rate self) (sirus_account_name self)) Returned;
        EvTeardown]).
Proof.
  intros Hcls. split; intros H.
  - exact (vote_submit_missing r a w c e H Hcls).
  - exact (run_submit_missing self w' c e H Hcls).
Qed.

(** C6, in the code as it runs: with selenium's [find_element] the handler
    of the first marker check is never entered.  The iframe is never clicked
    and the marker never checked again; whatever the first check raises, a
    missing marker included, leaves the operation. *)
Theorem iframe_retry_never_runs (Hsel : find_element_is_seleniums driver) (w : World) :
  calls_at 100 (trace (_solve_cloudflare_captcha driver w)) = 0 /\
  calls_at 101 (trace (_solve_cloudflare_captcha driver w)) = 0 /\
  (forall c e,
     In (EvDriver 98 c (Raised e)) (trace (_solve_cloudflare_captcha driver w)) ->
     res (_solve_cloudflare_captcha driver w) = Raise e).
Proof. exact (iframe_seleniums_no_retry Hsel w). Qed.

(** C7: every vote the run invokes gets the server rate and the account name
    the automation object was constructed with. *)
Theorem run_vote_arguments (url user_name user_password rate account b : string)
    (w : World) (r' a' : string) :
  In (EvCall (op_vote r' a'))
     (trace (run driver
               (MMOTopAutomation_init url user_name user_password rate account b) w)) ->
  r' = rate /\ a' = account.
Proof.
  run_paths; intros H; in_cases H.
  all: split; reflexivity.
Qed.


(** C10: when the countdown probe raises anything but NoSuchElementException,
    the run invokes neither the slider challenge nor the vote and ends with
    that exception, which thus reaches the handlers of the top level: they
    log it if it is of a handled class and let it through otherwise. *)
Theorem probe_other_exception_aborts (environ : gmap string string) (w : World)
    (e : Exc) :
  In (EvExit op_log_time_until_next_vote (Raised e))
     (trace (run driver (configured environ) w)) ->
  exc_class e <> NoSuchElementException ->
  slider_and_vote_calls (trace (run driver (configured environ) w)) = [] /\
  res (run driver (configured environ) w) = Raise e /\
  last_events 2 (trace (run driver (configured environ) w)) =
    [EvExit op_log_time_until_next_vote (Raised e); EvTeardown] /\
  main driver environ w =
    match exc_class e with
    | OtherException _ => run driver (configured environ) w
    | _ => (Ok tt, world (run driver (configured environ) w),
            trace (run driver (configured environ) w) ++ [top_level_record e])
    end.
Proof.
  intros H Hne.
  destruct (run_probe_raised _ _ _ H Hne) as (Hcalls & Hres & Hlast).
  rewrite main_run, (top_level_raised _ _ e Hres).
  repeat split; assumption.
Qed.

(** *** Further properties of the orchestration *)

Ltac login_paths :=
  match goal with
  | |- context [login ?d ?u ?p ?w] => paths_of (login d u p w)
  end.

Lemma run_page_calls (self : MMOTopAutomation) (w : World) :
  page_calls (trace (run driver self w)) `prefix_of`
    [ op_open_vote_page (vote_url self);
      op_login (username self) (password self);
      op_log_time_until_next_vote;
      op_solve_qaptcha;
      op_vote (server_rate self) (sirus_account_name self);
      op_solve_cloudflare_captcha ].
Proof.
  run_paths.
  all: eexists; reflexivity.
Qed.

(** X1: the page operations of a run are invoked at most once each and in
    the order open, login, probe, slider challenge, vote, iframe challenge,
    with the URL, the credentials, the server rate and the account name of
    the automation object; a run stops somewhere along this sequence. *)
Theorem run_invokes_operations_in_order (self : MMOTopAutomation) (w : World) :
  page_calls (trace (run driver self w)) `prefix_of`
    [ op_open_vote_page (vote_url self);
      op_login (username self) (password self);
      op_log_time_until_next_vote;
      op_solve_qaptcha;
      op_vote (server_rate self) (sirus_account_name self);
      op_solve_cloudflare_captcha ].
Proof. exact (run_page_calls self w). Qed.

(** X2: the vote is invoked only in a run in which the login returned, the
    countdown probe raised NoSuchElementException and the slider challenge
    returned. *)
Theorem run_vote_requires_eligibility (self : MMOTopAutomation) (w : World)
    (r a : string) :
  In (EvCall (op_vote r a)) (trace (run driver self w)) ->
  exists e : Exc,
    In (EvExit op_log_time_until_next_vote (Raised e)) (trace (run driver self w)) /\
    exc_class e = NoSuchElementException /\
    In (EvExit op_solve_qaptcha Returned) (trace (run driver self w)) /\
    In (EvExit (op_login (username self) (password self)) Returned)
       (trace (run driver self w)).
Proof.
  run_paths; intros H; in_cases H.
  all: eexists; split; [ in_trace | split; [ reflexivity | split; in_trace ] ].
Qed.

(** X3: a run that returns normally has either seen the countdown, or
    clicked the submit button, or found the submit button missing; the
    result of a run does not tell these apart. *)
Theorem run_returns_normally_cases (self : MMOTopAutomation) (w : World) :
  res (run driver self w) = Ok tt ->
  In (EvExit op_log_time_until_next_vote Returned) (trace (run driver self w)) \/
  (exists c, In (EvDriver 123 c Returned) (trace (run driver self w))) \/
  (exists c e, In (EvDriver 123 c (Raised e)) (trace (run driver self w)) /\
               exc_class e = NoSuchElementException).
Proof.
  run_paths; intros H; try discriminate H.
  all: first [ left; in_trace
             | right; left; eexists; in_trace
             | right; right; do 2 eexists; split; [ in_trace | reflexivity ] ].
Qed.

(** X4: the run handles nothing but a NoSuchElementException of the
    countdown probe: any other exception leaving a page operation ends the
    run with that exception. *)
Theorem run_page_operation_failure_is_fatal (self : MMOTopAutomation) (w : World)
    (op : PageOp) (e : Exc) :
  In (EvExit op (Raised e)) (trace (run driver self w)) ->
  (op = op_log_time_until_next_vote -> exc_class e <> NoSuchElementException) ->
  res (run driver self w) = Raise e.
Proof.
  run_paths; intros H Hprobe; in_cases H; try reflexivity.
  all: exfalso; exact (Hprobe eq_refl eq_refl).
Qed.

(** *** Further properties of the page operations *)

(** X5: the login types the password only into the password field and only
    after the user name was typed; it returns normally exactly when the
    final click on the sign-in button returned, and raises whatever a driver
    call of its own raised. *)
Theorem login_steps (user_name user_password : string) (w : World) :
  (forall c o, In (EvDriver 63 c o) (trace (login driver user_name user_password w)) ->
     c = send_keys "//input[@id='user_password']" user_password By_XPATH /\
     In (EvDriver 62 (send_keys "//input[@id='user_email']" user_name By_XPATH) Returned)
        (trace (login driver user_name user_password w))) /\
  (res (login driver user_name user_password w) = Ok tt <->
     In (EvDriver 66 (uc_click (Selector "//input[@name='sign_in']") (Some By_XPATH) 5)
           Returned)
        (trace (login driver user_name user_password w))) /\
  (forall line c e,
     In (EvDriver line c (Raised e)) (trace (login driver user_name user_password w)) ->
     res (login driver user_name user_password w) = Raise e).
Proof.
  login_paths.
  all: split; [ | split ].
  all: try (intros c' o' H; in_cases H; (split; [ reflexivity | in_trace ])).
  all: try (intros l' c' e' H; in_cases H; reflexivity).
  all: split; intros H; first [ discriminate H | in_trace | reflexivity | in_cases H ].
Qed.

(** X6: the slider challenge drags the element its wait returned by
    (478, 0); "Qaptcha solved!" is logged exactly when the drag returned,
    whereas the operation returns normally exactly when the reconnect after
    it returned. *)
Theorem solve_qaptcha_steps (w : World) :
  (In (EvLog INFO "Qaptcha solved!") (trace (solve_qaptcha driver w)) <->
     exists slider,
       In (EvDriver 75 (drag_and_drop_by_offset slider 478 0) Returned)
          (trace (solve_qaptcha driver w))) /\
  (forall c o, In (EvDriver 75 c o) (trace (solve_qaptcha driver w)) ->
     exists slider w1,
       drv_element driver
         (wait_for_element_present
            [ "//div[@class='Slider ui-draggable ui-draggable-handle']" ]) w
         = (Ok slider, w1) /\
       c = drag_and_drop_by_offset slider 478 0) /\
  (res (solve_qaptcha driver w) = Ok tt <->
     In (EvDriver 77 (reconnect 3) Returned) (trace (solve_qaptcha driver w))).
Proof.
  unfold solve_qaptcha, traced, mbind, M_mbind, M_bind, call_element, call_unit,
    logging_info, emit, res, trace.
  destruct (drv_element driver _ w) as [[slider | e] w1] eqn:Hwait; cbn -[In].
  2: { split; [ | split ].
       - split; [ intros H | intros [s H] ]; in_cases H.
       - intros c o H; in_cases H.
       - split; intros H; [ discriminate H | in_cases H ]. }
  destruct (drv_unit driver _ w1) as [[[] | e] w2]; cbn -[In].
  2: { split; [ | split ].
       - split; [ intros H | intros [s H] ]; in_cases H.
       - intros c o H; in_cases H. exists slider, w1. split; reflexivity.
       - split; intros H; [ discriminate H | in_cases H ]. }
  destruct (drv_unit driver _ w2) as [[[] | e] w3]; cbn -[In].
  all: split; [ | split ].
  all: try (split; [ intros _; exists slider; in_trace | intros _; in_trace ]).
  all: try (intros c o H; in_cases H; exists slider, w1; split; reflexivity).
  all: split; intros H; first [ discriminate H | in_trace | reflexivity | in_cases H ].
Qed.

(** X7: the countdown probe logs only when it returns normally, and what it
    logs is the text the driver read from the element the wait returned. *)
Theorem probe_logs_displayed_text (w : World) (msg : string) :
  In (EvLog INFO msg) (trace (log_time_until_next_vote driver w)) ->
  exists countdown_element w1 countdown_text w2,
    drv_element driver
      (wait_for_element_present
         [ By_XPATH; "//span[@class='countdown_row countdown_amount']" ]) w
      = (Ok countdown_element, w1) /\
    drv_string driver (element_text countdown_element) w1 = (Ok countdown_text, w2) /\
    msg = "Time remaining until next vote: " +:+ countdown_text /\
    res (log_time_until_next_vote driver w) = Ok tt /\
    world (log_time_until_next_vote driver w) = w2.
Proof.
  unfold log_time_until_next_vote, traced, mbind, M_mbind, M_bind, call_element,
    call_string, logging_info, emit, res, trace, world.
  destruct (drv_element driver _ w) as [[el | e] w1] eqn:Hwait; cbn -[In String.append].
  2: intros H; in_cases H.
  destruct (drv_string driver _ w1) as [[txt | e] w2] eqn:Htext; cbn -[In String.append].
  2: intros H; in_cases H.
  intros H; in_cases H.
  exists el, w1, txt, w2. repeat split; assumption.
Qed.

(** X8: the iframe challenge returns normally exactly when the marker was
    found, at the first check or at the second. *)
Theorem iframe_challenge_returns_iff_marker_found (w : World) :
  res (_solve_cloudflare_captcha driver w) = Ok tt <->
  exists c, In (EvDriver 98 c Returned) (trace (_solve_cloudflare_captcha driver w)) \/
            In (EvDriver 101 c Returned) (trace (_solve_cloudflare_captcha driver w)).
Proof.
  captcha_paths.
  all: split; [ intros H; try discriminate H | intros [c' [H | H]]; in_cases H ].
  all: try reflexivity.
  all: eexists; first [ left; in_trace | right; in_trace ].
Qed.

(** X9: the soft failure of the vote is for NoSuchElementException only: any
    other exception of the click on the submit button leaves the vote, with
    nothing logged after the click, and ends the run. *)
Theorem vote_submit_other_exception_is_fatal (self : MMOTopAutomation) (r a : string)
    (w w' : World) (c : DriverCall) (e : Exc) :
  exc_class e <> NoSuchElementException ->
  (In (EvDriver 123 c (Raised e)) (trace (vote driver r a w)) ->
     res (vote driver r a w) = Raise e /\
     last_events 2 (trace (vote driver r a w)) =
       [EvDriver 123 c (Raised e); EvExit (op_vote r a) (Raised e)]) /\
  (In (EvDriver 123 c (Raised e)) (trace (run driver self w')) ->
     res (run driver self w') = Raise e).
Proof.
  intros Hcls. split.
  - vote_paths; intros H; in_cases H; try (exfalso; apply Hcls; reflexivity).
    all: split; reflexivity.
  - run_paths; intros H; in_cases H; try (exfalso; apply Hcls; reflexivity).
    all: reflexivity.
Qed.

(** X10: when the click on the submit button returns, the vote logs
    "Vote successful!", sleeps 10 seconds and returns normally. *)
Theorem vote_submit_returned (r a : string) (w : World) (c : DriverCall) :
  In (EvDriver 123 c Returned) (trace (vote driver r a w)) ->
  res (vote driver r a w) = Ok tt /\
  last_events 4 (trace (vote driver r a w)) =
    [EvDriver 123 c Returned; EvLog INFO "Vote successful!"; EvSleep 10;
     EvExit (op_vote r a) Returned].
Proof.
  vote_paths; intros H; in_cases H.
  all: split; reflexivity.
Qed.

(** X11: the submit button is clicked only after the radio button of the
    server rate was clicked, the account name was typed into the input that
    was cleared, the iframe challenge returned and the reconnect returned. *)
Theorem vote_submit_preconditions (r a : string) (w : World) (c : DriverCall)
    (o : Outcome) :
  In (EvDriver 123 c o) (trace (vote driver r a w)) ->
  c = click "//div/input[@type='submit']" /\
  In (EvDriver 112
        (uc_click (Selector ("//td[contains(text(), '" +:+ r
                             +:+ "')]/../td/input[@type='radio']"))
           (Some By_XPATH) 3) Returned)
     (trace (vote driver r a w)) /\
  (exists char_input,
     In (EvDriver 118 (element_clear char_input) Returned) (trace (vote driver r a w)) /\
     In (EvDriver 119 (element_send_keys char_input a) Returned)
        (trace (vote driver r a w))) /\
  In (EvExit op_solve_cloudflare_captcha Returned) (trace (vote driver r a w)) /\
  In (EvDriver 121 (reconnect 3) Returned) (trace (vote driver r a w)).
Proof.
  vote_paths; intros H; in_cases H.
  all: split; [ reflexivity | ].
  all: split; [ in_trace | ].
  all: split; [ eexists; split; in_trace | ].
  all: split; in_trace.
Qed.

(** X12: the only record a run logs at level ERROR is "Captcha not solved!",
    and it does so only when the click on the submit button raised
    NoSuchElementException; the run then returns normally. *)
Theorem run_error_record_only_for_missing_submit (self : MMOTopAutomation) (w : World)
    (msg : string) :
  In (EvLog ERROR msg) (trace (run driver self w)) ->
  msg = "Captcha not solved!" /\
  res (run driver self w) = Ok tt /\
  exists c e, In (EvDriver 123 c (Raised e)) (trace (run driver self w)) /\
              exc_class e = NoSuchElementException.
Proof.
  run_paths; intros H; in_cases H.
  all: split; [ reflexivity | split; [ reflexivity | ] ].
  all: do 2 eexists; split; [ in_trace | reflexivity ].
Qed.

(** *** Further properties of the top level *)

(** X13: the [__main__] block never ends with an exception of one of the
    three handled classes; when it ends with an exception, that exception is
    the run's and nothing was logged for it. *)
Theorem main_raises_only_unhandled_classes (environ : gmap string string) (w : World)
    (e : Exc) :
  res (main driver environ w) = Raise e ->
  (exists name, exc_class e = OtherException name) /\
  main driver environ w = run driver (configured environ) w.
Proof.
  rewrite main_run. unfold try_except, top_level_handlers, res.
  destruct (run driver (configured environ) w) as [[[[] | e'] w1] t]; cbn.
  - discriminate.
  - destruct (exc_class e') as [ | | | name] eqn:Hcls; cbn; try discriminate.
    intros [= ->]. split; [ exists name; exact Hcls | reflexivity ].
Qed.

(** X14: whatever the environment, the process invokes the page operations
    in order and at most once, on the literal vote URL and server rate "x2",
    with the credentials and the account name read from the environment (the
    empty string when unset). *)
Theorem main_invokes_operations_from_environment (environ : gmap string string) (w : World) :
  page_calls (trace (main driver environ w)) `prefix_of`
    [ op_open_vote_page "https://wow.mmotop.ru/servers/5130/votes/new";
      op_login (getenv environ "mmotop_login" "") (getenv environ "mmotop_password" "");
      op_log_time_until_next_vote;
      op_solve_qaptcha;
      op_vote "x2" (getenv environ "sirus_account_name" "");
      op_solve_cloudflare_captcha ].
Proof.
  pose proof (run_page_calls (configured environ) w) as Hrun.
  rewrite main_run. unfold try_except, top_level_handlers, trace in *.
  destruct (run driver (configured environ) w) as [[[[] | e] w1] t]; cbn in *.
  - exact Hrun.
  - destruct (exc_class e); cbn; try exact Hrun.
    all: unfold page_calls in *; rewrite omap_app; cbn; rewrite app_nil_r; exact Hrun.
Qed.

End RunProperties.

(** ** Configuration from the environment *)

(** C8: with [mmotop_login], [mmotop_password] and [sirus_account_name]
    unset, the configuration is built, its user name, password and account
    name are the empty string, and the automation object is constructed
    from it with these values. *)
Theorem config_defaults_when_unset (environ : gmap string string) :
  environ !! "mmotop_login" = None ->
  environ !! "mmotop_password" = None ->
  environ !! "sirus_account_name" = None ->
  config environ !! "user_name" = Some "" /\
  config environ !! "user_password" = Some "" /\
  config environ !! "sirus_account_name" = Some "" /\
  MMOTopAutomation_kwargs (config environ) =
    Ok (MMOTopAutomation_init "https://wow.mmotop.ru/servers/5130/votes/new"
          "" "" "x2" "" "chrome").
Proof.
  intros Hlogin Hpassword Haccount.
  rewrite kwargs_config. unfold configured, config, getenv.
  rewrite Hlogin, Hpassword, Haccount. cbn [default].
  repeat split; reflexivity.
Qed.

Lemma config_defaults_when_unset_witness :
  config ∅ !! "user_name" = Some "" /\
  config ∅ !! "user_password" = Some "" /\
  config ∅ !! "sirus_account_name" = Some "" /\
  MMOTopAutomation_kwargs (config ∅) =
    Ok (MMOTopAutomation_init "https://wow.mmotop.ru/servers/5130/votes/new"
          "" "" "x2" "" "chrome").
Proof.
  apply (config_defaults_when_unset ∅); reflexivity.
Defined.

(** X15: no environment variable other than [mmotop_login],
    [mmotop_password] and [sirus_account_name] has any effect on the
    configuration; the vote URL, the server rate and the browser cannot be
    set from the environment. *)
Theorem config_ignores_other_variables (environ : gmap string string) (k v : string) :
  k <> "mmotop_login" -> k <> "mmotop_password" -> k <> "sirus_account_name" ->
  config (<[k := v]> environ) = config environ.
Proof.
  intros Hlogin Hpassword Haccount. unfold config, getenv.
  rewrite !lookup_insert_ne by done. reflexivity.
Qed.

(** X16: a variable set to the empty string gives the same configuration as
    the variable unset. *)
Theorem config_empty_value_same_as_unset (environ : gmap string string) (k : string) :
  config (<[k := ""]> environ) = config (delete k environ).
Proof.
  unfold config, getenv.
  assert (Hk : forall k', default "" (<[k := ""]> environ !! k')
                          = default "" (delete k environ !! k')).
  { intros k'. destruct (decide (k = k')) as [-> | Hne].
    - rewrite lookup_insert_eq, lookup_delete_eq. reflexivity.
    - rewrite lookup_insert_ne, lookup_delete_ne by done. reflexivity. }
  rewrite !Hk. reflexivity.
Qed.

(** X17: when the three variables are set, the configuration carries their
    values as user name, password and account name, and the automation
    object is constructed with them. *)
Theorem config_reads_environment (environ : gmap string string) (l p a : string) :
  environ !! "mmotop_login" = Some l ->
  environ !! "mmotop_password" = Some p ->
  environ !! "sirus_account_name" = Some a ->
  config environ !! "user_name" = Some l /\
  config environ !! "user_password" = Some p /\
  config environ !! "sirus_account_name" = Some a /\
  MMOTopAutomation_kwargs (config environ) =
    Ok (MMOTopAutomation_init "https://wow.mmotop.ru/servers/5130/votes/new"
          l p "x2" a "chrome").
Proof.
  intros Hl Hp Ha.
  rewrite kwargs_config. unfold configured, config, getenv.
  rewrite Hl, Hp, Ha. cbn [default].
  repeat split.
  all: repeat first [ rewrite lookup_insert_eq; reflexivity
                    | rewrite lookup_insert_ne by done ].
Qed.

(** ** The claims on the scripted browser *)

(** C1, as first stated, fails: with no countdown and a slider that never
    shows up, the slider challenge is invoked and the vote is not. *)
Lemma run_eligible_slider_times_out :
  In (EvExit op_log_time_until_next_vote (Raised Scripted.not_found))
     (trace (run Scripted.driver Scripted.automation Scripted.slider_times_out)) /\
  exc_class Scripted.not_found = NoSuchElementException /\
  slider_and_vote_calls
    (trace (run Scripted.driver Scripted.automation Scripted.slider_times_out)) =
    [op_solve_qaptcha] /\
  slider_and_vote_calls
    (trace (run Scripted.driver Scripted.automation Scripted.slider_times_out)) <>
    [op_solve_qaptcha;
     op_vote (server_rate Scripted.automation) (sirus_account_name Scripted.automation)].
Proof.
  split; [ in_run | ]. split; [ reflexivity | ]. split; [ reflexivity | ].
  vm_compute. discriminate.
Qed.

Lemma run_eligible_calls_witness :
  In (EvExit op_log_time_until_next_vote (Raised Scripted.not_found))
     (trace (run Scripted.driver Scripted.automation Scripted.eligible)) /\
  exists o : Outcome,
    In (EvExit op_solve_qaptcha o)
       (trace (run Scripted.driver Scripted.automation Scripted.eligible)) /\
    slider_and_vote_calls
      (trace (run Scripted.driver Scripted.automation Scripted.eligible)) =
      match o with
      | Returned => [op_solve_qaptcha; op_vote "x2" "hero"]
      | Raised _ => [op_solve_qaptcha]
      end.
Proof.
  assert (H : In (EvExit op_log_time_until_next_vote (Raised Scripted.not_found))
                 (trace (run Scripted.driver Scripted.automation Scripted.eligible)))
    by in_run.
  split; [ exact H | ].
  exact (run_eligible_calls Scripted.driver Scripted.automation Scripted.eligible
           Scripted.not_found H eq_refl).
Defined.

Lemma run_already_voted_witness :
  slider_and_vote_calls
    (trace (run Scripted.driver Scripted.automation Scripted.already_voted)) = [] /\
  res (run Scripted.driver Scripted.automation Scripted.already_voted) = Ok tt /\
  last_events 2 (trace (run Scripted.driver Scripted.automation Scripted.already_voted)) =
    [EvExit op_log_time_until_next_vote Returned; EvTeardown].
Proof.
  apply (run_already_voted Scripted.driver Scripted.automation Scripted.already_voted).
  in_run.
Defined.

Lemma selenium_driver_find_element : find_element_is_seleniums Scripted.selenium_driver.
Proof.
  intros args w w' e. cbn. unfold Scripted.answer_element, Scripted.answer.
  destruct w as [ | [c' e'] rest ]; [ discriminate | ].
  destruct (decide (find_element args = c')); [ | discriminate ].
  intros [= <- _]. unfold Scripted.as_selenium.
  destruct (exc_class e') eqn:Hcls; cbn; rewrite ?Hcls; discriminate.
Qed.


Lemma login_exception_reaches_top_level_witness :
  res (run Scripted.driver (configured ∅) Scripted.sign_in_missing) =
    Raise Scripted.not_found /\
  last_events 2 (trace (run Scripted.driver (configured ∅) Scripted.sign_in_missing)) =
    [EvExit (op_login "" "") (Raised Scripted.not_found); EvTeardown] /\
  res (main Scripted.driver ∅ Scripted.sign_in_missing) = Ok tt /\
  trace (main Scripted.driver ∅ Scripted.sign_in_missing) =
    trace (run Scripted.driver (configured ∅) Scripted.sign_in_missing)
      ++ [top_level_record Scripted.not_found].
Proof.
  apply (login_exception_reaches_top_level Scripted.driver ∅ Scripted.sign_in_missing
           "" "" Scripted.not_found).
  - in_run.
  - left. reflexivity.
Defined.

Lemma vote_missing_submit_is_soft_witness :
  (res (vote Scripted.driver "x2" "hero" Scripted.page_without_submit) = Ok tt /\
   last_events 3 (trace (vote Scripted.driver "x2" "hero" Scripted.page_without_submit)) =
     [EvDriver 123 Scripted.submit_click (Raised Scripted.not_found);
      EvLog ERROR "Captcha not solved!"; EvExit (op_vote "x2" "hero") Returned]) /\
  (res (run Scripted.driver Scripted.automation Scripted.submit_missing) = Ok tt /\
   last_events 4 (trace (run Scripted.driver Scripted.automation Scripted.submit_missing)) =
     [EvDriver 123 Scripted.submit_click (Raised Scripted.not_found);
      EvLog ERROR "Captcha not solved!"; EvExit (op_vote "x2" "hero") Returned;
      EvTeardown]).
Proof.
  destruct (vote_missing_submit_is_soft Scripted.driver Scripted.automation "x2" "hero"
              Scripted.page_without_submit Scripted.submit_missing
              Scripted.submit_click Scripted.not_found eq_refl) as [Hvote Hrun].
  split; [ apply Hvote | apply Hrun ]; in_run.
Defined.

Lemma iframe_retry_never_runs_witness :
  In (EvDriver 98 Scripted.marker_check (Raised Scripted.selenium_not_found))
     (trace (_solve_cloudflare_captcha Scripted.selenium_driver Scripted.marker_absent)) /\
  calls_at 100
    (trace (_solve_cloudflare_captcha Scripted.selenium_driver Scripted.marker_absent)) = 0 /\
  calls_at 101
    (trace (_solve_cloudflare_captcha Scripted.selenium_driver Scripted.marker_absent)) = 0 /\
  res (_solve_cloudflare_captcha Scripted.selenium_driver Scripted.marker_absent) =
    Raise Scripted.selenium_not_found.
Proof.
  assert (H : In (EvDriver 98 Scripted.marker_check (Raised Scripted.selenium_not_found))
                 (trace (_solve_cloudflare_captcha Scripted.selenium_driver
                           Scripted.marker_absent)))
    by in_run.
  destruct (iframe_retry_never_runs Scripted.selenium_driver
              selenium_driver_find_element Scripted.marker_absent)
    as (Hclick & Hrecheck & Hraise).
  split; [ exact H | ]. split; [ exact Hclick | ]. split; [ exact Hrecheck | ].
  exact (Hraise _ _ H).
Defined.

Lemma run_vote_arguments_witness :
  In (EvCall (op_vote "x2" "hero"))
     (trace (run Scripted.driver Scripted.automation Scripted.eligible)) /\
  "x2" = server_rate Scripted.automation /\
  "hero" = sirus_account_name Scripted.automation.
Proof.
  assert (H : In (EvCall (op_vote "x2" "hero"))
                 (trace (run Scripted.driver Scripted.automation Scripted.eligible)))
    by in_run.
  split; [ exact H | ].
  exact (run_vote_arguments Scripted.driver
           "https://wow.mmotop.ru/servers/5130/votes/new" "user" "secret" "x2" "hero"
           "chrome" Scripted.eligible "x2" "hero" H).
Defined.


Lemma probe_other_exception_aborts_witness :
  slider_and_vote_calls
    (trace (run Scripted.driver (configured ∅) Scripted.countdown_times_out)) = [] /\
  res (run Scripted.driver (configured ∅) Scripted.countdown_times_out) =
    Raise Scripted.timed_out /\
  last_events 2 (trace (run Scripted.driver (configured ∅) Scripted.countdown_times_out)) =
    [EvExit op_log_time_until_next_vote (Raised Scripted.timed_out); EvTeardown] /\
  main Scripted.driver ∅ Scripted.countdown_times_out =
    (Ok tt, world (run Scripted.driver (configured ∅) Scripted.countdown_times_out),
     trace (run Scripted.driver (configured ∅) Scripted.countdown_times_out)
       ++ [top_level_record Scripted.timed_out]).
Proof.
  apply (probe_other_exception_aborts Scripted.driver ∅ Scripted.countdown_times_out
           Scripted.timed_out).
  - in_run.
  - discriminate.
Defined.

(** ** The further properties on the scripted browser *)

Lemma run_vote_requires_eligibility_witness :
  In (EvCall (op_vote "x2" "hero"))
     (trace (run Scripted.driver Scripted.automation Scripted.eligible)) /\
  exists e : Exc,
    In (EvExit op_log_time_until_next_vote (Raised e))
       (trace (run Scripted.driver Scripted.automation Scripted.eligible)) /\
    exc_class e = NoSuchElementException /\
    In (EvExit op_solve_qaptcha Returned)
       (trace (run Scripted.driver Scripted.automation Scripted.eligible)) /\
    In (EvExit (op_login "user" "secret") Returned)
       (trace (run Scripted.driver Scripted.automation Scripted.eligible)).
Proof.
  assert (H : In (EvCall (op_vote "x2" "hero"))
                 (trace (run Scripted.driver Scripted.automation Scripted.eligible)))
    by in_run.
  split; [ exact H | ].
  exact (run_vote_requires_eligibility Scripted.driver Scripted.automation
           Scripted.eligible "x2" "hero" H).
Defined.

Lemma run_returns_normally_cases_witness :
  In (EvExit op_log_time_until_next_vote Returned)
     (trace (run Scripted.driver Scripted.automation Scripted.already_voted)) \/
  (exists c, In (EvDriver 123 c Returned)
     (trace (run Scripted.driver Scripted.automation Scripted.already_voted))) \/
  (exists c e, In (EvDriver 123 c (Raised e))
     (trace (run Scripted.driver Scripted.automation Scripted.already_voted)) /\
               exc_class e = NoSuchElementException).
Proof.
  apply (run_returns_normally_cases Scripted.driver Scripted.automation
           Scripted.already_voted).
  reflexivity.
Defined.

Lemma run_page_operation_failure_is_fatal_witness :
  res (run Scripted.driver Scripted.automation Scripted.sign_in_missing) =
    Raise Scripted.not_found.
Proof.
  apply (run_page_operation_failure_is_fatal Scripted.driver Scripted.automation
           Scripted.sign_in_missing (op_login "user" "secret") Scripted.not_found).
  - in_run.
  - discriminate.
Defined.

Lemma probe_logs_displayed_text_witness :
  exists countdown_element w1 countdown_text w2,
    drv_element Scripted.driver
      (wait_for_element_present
         [ By_XPATH; "//span[@class='countdown_row countdown_amount']" ])
      Scripted.already_voted
      = (Ok countdown_element, w1) /\
    drv_string Scripted.driver (element_text countdown_element) w1
      = (Ok countdown_text, w2) /\
    "Time remaining until next vote: 23:59:59"
      = "Time remaining until next vote: " +:+ countdown_text /\
    res (log_time_until_next_vote Scripted.driver Scripted.already_voted) = Ok tt /\
    world (log_time_until_next_vote Scripted.driver Scripted.already_voted) = w2.
Proof.
  apply (probe_logs_displayed_text Scripted.driver Scripted.already_voted
           "Time remaining until next vote: 23:59:59").
  in_run.
Defined.

Lemma vote_submit_other_exception_is_fatal_witness :
  (res (vote Scripted.driver "x2" "hero" Scripted.page_submit_times_out) =
     Raise Scripted.timed_out /\
   last_events 2 (trace (vote Scripted.driver "x2" "hero" Scripted.page_submit_times_out)) =
     [EvDriver 123 Scripted.submit_click (Raised Scripted.timed_out);
      EvExit (op_vote "x2" "hero") (Raised Scripted.timed_out)]) /\
  res (run Scripted.driver Scripted.automation Scripted.submit_times_out) =
    Raise Scripted.timed_out.
Proof.
  assert (Hcls : exc_class Scripted.timed_out <> NoSuchElementException) by discriminate.
  destruct (vote_submit_other_exception_is_fatal Scripted.driver Scripted.automation
              "x2" "hero" Scripted.page_submit_times_out Scripted.submit_times_out
              Scripted.submit_click Scripted.timed_out Hcls) as [Hvote Hrun].
  split; [ apply Hvote | apply Hrun ]; in_run.
Defined.

Lemma vote_submit_returned_witness :
  res (vote Scripted.driver "x2" "hero" Scripted.already_voted) = Ok tt /\
  last_events 4 (trace (vote Scripted.driver "x2" "hero" Scripted.already_voted)) =
    [EvDriver 123 Scripted.submit_click Returned; EvLog INFO "Vote successful!";
     EvSleep 10; EvExit (op_vote "x2" "hero") Returned].
Proof.
  apply (vote_submit_returned Scripted.driver "x2" "hero" Scripted.already_voted
           Scripted.submit_click).
  in_run.
Defined.

Lemma vote_submit_preconditions_witness :
  Scripted.submit_click = click "//div/input[@type='submit']" /\
  In (EvDriver 112 Scripted.radio_click Returned)
     (trace (vote Scripted.driver "x2" "hero" Scripted.page_without_submit)) /\
  (exists char_input,
     In (EvDriver 118 (element_clear char_input) Returned)
        (trace (vote Scripted.driver "x2" "hero" Scripted.page_without_submit)) /\
     In (EvDriver 119 (element_send_keys char_input "hero") Returned)
        (trace (vote Scripted.driver "x2" "hero" Scripted.page_without_submit))) /\
  In (EvExit op_solve_cloudflare_captcha Returned)
     (trace (vote Scripted.driver "x2" "hero" Scripted.page_without_submit)) /\
  In (EvDriver 121 (reconnect 3) Returned)
     (trace (vote Scripted.driver "x2" "hero" Scripted.page_without_submit)).
Proof.
  apply (vote_submit_preconditions Scripted.driver "x2" "hero"
           Scripted.page_without_submit Scripted.submit_click
           (Raised Scripted.not_found)).
  in_run.
Defined.

Lemma run_error_record_only_for_missing_submit_witness :
  In (EvLog ERROR "Captcha not solved!")
     (trace (run Scripted.driver Scripted.automation Scripted.submit_missing)) /\
  res (run Scripted.driver Scripted.automation Scripted.submit_missing) = Ok tt /\
  exists c e,
    In (EvDriver 123 c (Raised e))
       (trace (run Scripted.driver Scripted.automation Scripted.submit_missing)) /\
    exc_class e = NoSuchElementException.
Proof.
  assert (H : In (EvLog ERROR "Captcha not solved!")
                 (trace (run Scripted.driver Scripted.automation Scripted.submit_missing)))
    by in_run.
  split; [ exact H | ].
  exact (proj2 (run_error_record_only_for_missing_submit Scripted.driver
                  Scripted.automation Scripted.submit_missing "Captcha not solved!" H)).
Defined.

Lemma main_raises_only_unhandled_classes_witness :
  (exists name, exc_class Scripted.crashed = OtherException name) /\
  main Scripted.driver ∅ Scripted.browser_crashes =
    run Scripted.driver (configured ∅) Scripted.browser_crashes.
Proof.
  apply (main_raises_only_unhandled_classes Scripted.driver ∅ Scripted.browser_crashes
           Scripted.crashed).
  reflexivity.
Defined.

Lemma config_ignores_other_variables_witness :
  config (<["server_rate" := "x100"]> ∅) = config ∅.
Proof.
  apply (config_ignores_other_variables ∅ "server_rate" "x100"); discriminate.
Defined.

Lemma config_reads_environment_witness :
  config (<["mmotop_login" := "user"]> (<["mmotop_password" := "secret"]>
            (<["sirus_account_name" := "hero"]> ∅))) !! "user_name" = Some "user" /\
  config (<["mmotop_login" := "user"]> (<["mmotop_password" := "secret"]>
            (<["sirus_account_name" := "hero"]> ∅))) !! "user_password" = Some "secret" /\
  config (<["mmotop_login" := "user"]> (<["mmotop_password" := "secret"]>
            (<["sirus_account_name" := "hero"]> ∅))) !! "sirus_account_name"
    = Some "hero" /\
  MMOTopAutomation_kwargs
    (config (<["mmotop_login" := "user"]> (<["mmotop_password" := "secret"]>
               (<["sirus_account_name" := "hero"]> ∅)))) =
    Ok (MMOTopAutomation_init "https://wow.mmotop.ru/servers/5130/votes/new"
          "user" "secret" "x2" "hero" "chrome").
Proof.
  apply (config_reads_environment
           (<["mmotop_login" := "user"]> (<["mmotop_password" := "secret"]>
              (<["sirus_account_name" := "hero"]> ∅)))
           "user" "secret" "hero"); reflexivity.
Defined.
